(** * ReplicateGen node: schema translation and prediction polling

    A shallow embedding of [src/nodes/ReplicateGen/ReplicateGen.node.ts]:
    the JSON values the node handles, the schema type coercion of
    [getModelProperties], the request-body assembly of [mapProperties], the
    version listing of [getModelVersions] and the submission / polling loop
    of [execute], followed by the properties established about them. *)

From Stdlib Require Import List String Ascii ZArith Lia Bool Arith.
From Stdlib Require Import Sorting.Sorted Sorting.Permutation.
Import ListNotations.
Open Scope string_scope.

Set Warnings "-register-all".

(* ------------------------------------------------------------------ *)
(** ** JavaScript values *)
(* ------------------------------------------------------------------ *)

(** The values that flow through the node: parsed JSON documents plus
    [undefined].  Numbers are restricted to integers. *)
Inductive value : Type :=
| VUndefined
| VNull
| VBool (b : bool)
| VNum (n : Z)
| VStr (s : string)
| VArr (elems : list value)
| VObj (fields : list (string * value)).

(** An [IDataObject]: own properties in insertion order. *)
Definition obj := list (string * value).

(** Errors a computation can throw. *)
Inductive error : Type :=
| TypeError
    (* reading a property of [undefined] or [null] *)
| HttpError (e : value)
    (* rejection of [httpRequestWithAuthentication], uncaught *)
| NodeApiError (message : string) (res : value).
    (* [new NodeApiError(this.getNode(), { message, res })] *)

Module Js.

(** [o[k]] on an object known to be one: [undefined] when absent. *)
Fixpoint obj_get (o : obj) (k : string) : value :=
  match o with
  | [] => VUndefined
  | (k', v) :: rest => if String.eqb k' k then v else obj_get rest k
  end.

(** [o[k] = v]: overwrite in place, or append a new own property. *)
Fixpoint obj_set (o : obj) (k : string) (v : value) : obj :=
  match o with
  | [] => [(k, v)]
  | (k', v') :: rest =>
      if String.eqb k' k then (k, v) :: rest
      else (k', v') :: obj_set rest k v
  end.

Definition nullish (v : value) : bool :=
  match v with
  | VUndefined | VNull => true
  | _ => false
  end.

(** [v.k]: a TypeError on [undefined] and [null]; primitives and arrays
    have none of the properties the node reads ([urls], [get],
    [status]), so the access yields [undefined] there. *)
Definition get (v : value) (k : string) : value + error :=
  match v with
  | VUndefined | VNull => inr TypeError
  | VObj fields => inl (obj_get fields k)
  | _ => inl VUndefined
  end.

(** [v?.k]. *)
Definition opt_get (v : value) (k : string) : value + error :=
  if nullish v then inl VUndefined else get v k.

(** [a ?? b]. *)
Definition coalesce (a b : value) : value :=
  if nullish a then b else a.

(** Truthiness, as tested by [!v]. *)
Definition truthy (v : value) : bool :=
  match v with
  | VUndefined | VNull => false
  | VBool b => b
  | VNum n => negb (Z.eqb n 0)
  | VStr s => negb (String.eqb s "")
  | VArr _ | VObj _ => true
  end.

(** [v === 'lit']. *)
Definition strict_eq_str (v : value) (lit : string) : bool :=
  match v with
  | VStr s => String.eqb s lit
  | _ => false
  end.

(** [typeof v === 'string']. *)
Definition is_string (v : value) : bool :=
  match v with
  | VStr _ => true
  | _ => false
  end.

(** [s.split(sep)] for a one-character separator. *)
Fixpoint split (sep : ascii) (s : string) : list string :=
  match s with
  | EmptyString => [EmptyString]
  | String c s' =>
      if Ascii.eqb c sep then EmptyString :: split sep s'
      else match split sep s' with
           | [] => [String c EmptyString]
           | piece :: pieces => String c piece :: pieces
           end
  end.

(** [s.includes(sub)]. *)
Fixpoint includes (s sub : string) : bool :=
  String.prefix sub s
  || match s with
     | EmptyString => false
     | String _ s' => includes s' sub
     end.

(** [arr.includes(x)] on an array of string literals. *)
Definition arr_includes (arr : list string) (x : string) : bool :=
  existsb (String.eqb x) arr.

(** [arr.sort(cmp)]: the sort is stable, an element moves behind a
    later one only when the comparator is positive on the pair.  For a
    comparator that orders by a key, as the one the node passes does, this
    is the result of every stable sort. *)
Fixpoint sort_insert {A : Type} (cmp : A -> A -> Z) (x : A) (l : list A)
  : list A :=
  match l with
  | [] => [x]
  | y :: l' =>
      if (0 <? cmp x y)%Z then y :: sort_insert cmp x l' else x :: l
  end.

Fixpoint sort {A : Type} (cmp : A -> A -> Z) (l : list A) : list A :=
  match l with
  | [] => []
  | x :: l' => sort_insert cmp x (sort cmp l')
  end.

End Js.

(* ------------------------------------------------------------------ *)
(** ** Schema translator *)
(* ------------------------------------------------------------------ *)

(** [ReplicateProperty] of [ReplicateGen.types]. *)
Record ReplicateProperty : Type := {
  title : string;
  description : string;
  type : string
}.

Record INodePropertyOptions : Type := {
  opt_name : string;
  opt_value : string;
  opt_description : string
}.

(** The conditional expression bound to [type] in [getModelProperties]. *)
Definition coerceType (declared : string) : string :=
  if Js.arr_includes ["integer"; "number"] declared then "number"
  else if Js.arr_includes ["boolean"] declared then "boolean"
  else "string".

(** The loop of [getModelProperties] over [Object.entries(inputs)]. *)
Definition getModelProperties (inputs : list (string * ReplicateProperty))
  : list INodePropertyOptions :=
  map (fun '(key, v) =>
         {| opt_name := title v;
            opt_value := key ++ "|" ++ coerceType (type v);
            opt_description := description v |})
      inputs.

(** ** Request-body assembly *)

(** [`${type}Value`] where [type] is [prop.key.split('|')[1]], possibly
    [undefined]. *)
Definition slot_name (ty : option string) : string :=
  match ty with
  | Some t => t ++ "Value"
  | None => "undefinedValue"
  end.

(** The [default] the node description declares for the three value fields
    of a [propertyValues] entry.  The host uses them to fill in the form;
    [mapProperties] never reads them. *)
Definition field_default (slot : string) : value :=
  if String.eqb slot "booleanValue" then VBool false
  else if String.eqb slot "numberValue" then VNum 0
  else if String.eqb slot "stringValue" then VStr ""
  else VUndefined.

(** [prop.key] once the filter has established it is a string. *)
Definition key_of (prop : obj) : string :=
  match Js.obj_get prop "key" with
  | VStr k => k
  | _ => ""
  end.

(** The arrow function given to [.map] in [mapProperties]. *)
Definition map_entry (prop : obj) : string * value :=
  let ty := nth_error (Js.split "|" (key_of prop)) 1 in
  let v := Js.coalesce (Js.obj_get prop (slot_name ty)) (VStr "") in
  (hd "" (Js.split "|" (key_of prop)), v).

Definition mapProperties (properties : list obj) : obj :=
  fold_left
    (fun o kv => Js.obj_set o (fst kv) (snd kv))
    (map map_entry
         (filter (fun property => Js.is_string (Js.obj_get property "key"))
                 properties))
    [].

(** ** Version listing *)

(** One element of the [results] array of the versions endpoint. *)
Record version : Type := {
  id : string;
  created_at : string
}.

Record INodeListSearchItems : Type := {
  item_name : string;
  item_value : string;
  item_url : string
}.

Section Versions.

(** [new Date(s).getTime()], for creation dates that parse. *)
Variable getTime : string -> Z.

(** The comparator given to [results.sort]. *)
Definition by_created_at (a b : version) : Z :=
  (getTime (created_at b) - getTime (created_at a))%Z.

Definition search_item (modelName : string) (result : version)
  : INodeListSearchItems :=
  {| item_name := id result;
     item_value := id result;
     item_url := "https://replicate.com/" ++ modelName ++ "/versions/"
                 ++ id result |}.

(** [filter] is [None] when the host omits the argument, which the
    parameter default turns into the empty string. *)
Definition getModelVersions (modelName : string) (filter : option string)
           (results : list version) : list INodeListSearchItems :=
  let filter := match filter with Some f => f | None => "" end in
  let results := Js.sort by_created_at results in
  map (search_item modelName)
      (List.filter (fun result => Js.includes (id result) filter) results).

End Versions.

(* ------------------------------------------------------------------ *)
(** ** Job client *)
(* ------------------------------------------------------------------ *)

(** What the node does to the outside world, each event carrying the index
    [i] of the input item being processed when it happens. *)
Inductive event : Type :=
| EvPost (item : nat) (url : string) (body : value)
| EvGet (item : nat) (url : value)
| EvSleep (item : nat) (ms : Z).


(** How an awaited [httpRequestWithAuthentication] settles. *)
Inductive http_result : Type :=
| Response (body : value)
| Rejected (e : value).

(** A computation either returns, throws, or is still inside a [while]
    loop when the iteration budget of the model is used up. *)
Inductive outcome (A : Type) : Type :=
| Ret (a : A)
| Throw (e : error)
| Running.
Arguments Ret {A} a.
Arguments Throw {A} e.
Arguments Running {A}.

(** The run of a computation started when [n] requests had been issued:
    its outcome, the events it produced in order, and the number of
    requests issued once it stops. *)
Record run (A : Type) : Type := {
  result : outcome A;
  trace : list event;
  calls : nat
}.

Arguments result {A} r.
Arguments trace {A} r.
Arguments calls {A} r.

Definition M (A : Type) : Type := nat -> run A.

Definition ret {A : Type} (a : A) : M A :=
  fun n => {| result := Ret a; trace := []; calls := n |}.

Definition throw {A : Type} (e : error) : M A :=
  fun n => {| result := Throw e; trace := []; calls := n |}.

Definition running {A : Type} : M A :=
  fun n => {| result := Running; trace := []; calls := n |}.

Definition bind {A B : Type} (m : M A) (f : A -> M B) : M B :=
  fun n =>
    let r := m n in
    match result r with
    | Ret a =>
        let r' := f a (calls r) in
        {| result := result r'; trace := trace r ++ trace r';
           calls := calls r' |}
    | Throw e => {| result := Throw e; trace := trace r; calls := calls r |}
    | Running => {| result := Running; trace := trace r; calls := calls r |}
    end.

(** An expression that may raise a TypeError. *)
Definition lift {A : Type} (x : A + error) : M A :=
  match x with
  | inl a => ret a
  | inr e => throw e
  end.

Declare Scope job_scope.
Delimit Scope job_scope with job.
Notation "x <- m ; f" := (bind m (fun x => f))
  (at level 61, m at next level, right associativity) : job_scope.
Notation "m ;; f" := (bind m (fun _ => f))
  (at level 61, right associativity) : job_scope.

(** The two [setTimeout] periods, in milliseconds; one time unit of the
    specification is a second. *)
Definition poll_delay : Z := 5000.
Definition backoff_delay : Z := 10000.

Record item : Type := {
  modelVersion : string;
  properties : list obj
}.

Record INodeExecutionData : Type := {
  json : value;
  pairedItem : nat
}.

(** Modelled from the spec: the host helpers [returnJsonArray] and
    [constructExecutionMetaData] are not under src/; by section 4.4 a
    successful item contributes its result payload, tagged with the index
    of the item it came from. *)
Definition returnJsonArray (jsonData : value) : list value := [jsonData].

(** Modelled from the spec: [constructExecutionMetaData], likewise not
    under src/, tags each entry with the index of its originating item. *)
Definition constructExecutionMetaData (inputData : list value) (i : nat)
  : list INodeExecutionData :=
  map (fun d => {| json := d; pairedItem := i |}) inputData.

Section JobClient.

(** The remote service: how the [n]-th request issued by the node settles. *)
Variable http : nat -> http_result.

Local Open Scope job_scope.

Definition sleep (i : nat) (ms : Z) : M unit :=
  fun n => {| result := Ret tt; trace := [EvSleep i ms]; calls := n |}.

(** [await this.helpers.httpRequestWithAuthentication.call(...)], with the
    rejection reified so that a [try]/[catch] can inspect it. *)
Definition request (ev : event) : M http_result :=
  fun n => {| result := Ret (http n); trace := [ev]; calls := S n |}.

(** The [while (true)] loop of [execute] for item [i].  [numErrors] and
    [responseData] are the variables of those names; [fuel] bounds the
    number of iterations the model follows. *)
Fixpoint poll_loop (fuel : nat) (i : nat) (getUrl : value)
         (numErrors : nat) (responseData : value) : M value :=
  match fuel with
  | O => running
  | S fuel' =>
      sleep i poll_delay ;;
      r <- request (EvGet i getUrl) ;
      st <- match r with
            | Response body => ret (numErrors, body)
            | Rejected e =>
                let numErrors := S numErrors in
                if (2 <? numErrors)%nat
                then throw (NodeApiError "Error getting data from replicate" e)
                else sleep i backoff_delay ;; ret (numErrors, responseData)
            end ;
      let numErrors := fst st in
      let responseData := snd st in
      status <- lift (Js.get responseData "status") ;
      if Js.strict_eq_str status "failed"
      then throw (NodeApiError "Prediction failed" responseData)
      else if Js.strict_eq_str status "succeeded"
      then ret responseData
      else poll_loop fuel' i getUrl numErrors responseData
  end.

(** The body of the [for] loop up to the [break]: submission, the check of
    the status URL and the polling loop.  Returns [responseData]. *)
Definition process_item (fuel : nat) (i : nat) (it : item)
           (responseData : value) : M value :=
  let body := VObj [("version", VStr (modelVersion it));
                    ("input", VObj (mapProperties (properties it)))] in
  r <- request (EvPost i "https://api.replicate.com/v1/predictions" body) ;
  res <- match r with
         | Response res => ret res
         | Rejected e => throw (HttpError e)
         end ;
  urls <- lift (Js.get res "urls") ;
  getUrl <- lift (Js.opt_get urls "get") ;
  if negb (Js.truthy getUrl)
  then throw (NodeApiError "No get url found in response" res)
  else poll_loop fuel i getUrl 0 responseData.

(** The [for] loop from index [i] on.  [responseData] is declared once for
    the whole of [execute], so it is carried from one item to the next. *)
Fixpoint for_items (fuel : nat) (i : nat) (items : list item)
         (responseData : value) (returnData : list INodeExecutionData)
  : M (list INodeExecutionData) :=
  match items with
  | [] => ret returnData
  | it :: rest =>
      responseData <- process_item fuel i it responseData ;
      let executionData :=
        constructExecutionMetaData (returnJsonArray responseData) i in
      for_items fuel (S i) rest responseData (returnData ++ executionData)
  end.

Definition execute (fuel : nat) (resource operation : string)
           (items : list item) : M (list (list INodeExecutionData)) :=
  if String.eqb resource "model" then
    if String.eqb operation "prediction" then
      returnData <- for_items fuel 0 items VUndefined [] ;
      ret [returnData]
    else ret [[]]
  else ret [[]].

End JobClient.

(** A remote service that settles requests as scripted, and rejects every
    request past the end of the script. *)
Definition scripted (script : list http_result) : nat -> http_result :=
  fun n => nth n script (Rejected VUndefined).

(* ------------------------------------------------------------------ *)
(** ** Vocabulary of the statements *)
(* ------------------------------------------------------------------ *)

(** [s] contains the character [c]. *)
Fixpoint has_char (c : ascii) (s : string) : bool :=
  match s with
  | EmptyString => false
  | String c' s' => Ascii.eqb c' c || has_char c s'
  end.

(** [a] may stand before [b] in a newest-first listing. *)
Definition not_older (getTime : string -> Z) (a b : version) : Prop :=
  (getTime (created_at b) <= getTime (created_at a))%Z.


(** The events of [t] followed by the run [r]. *)
Definition prepend {A : Type} (t : list event) (r : run A) : run A :=
  {| result := result r; trace := (t ++ trace r)%list; calls := calls r |}.

(** One poll attempt of item [i]: the fixed delay, then the GET. *)
Definition poll_round (i : nat) (getUrl : value) : list event :=
  [EvSleep i poll_delay; EvGet i getUrl].

Fixpoint poll_rounds (k : nat) (i : nat) (getUrl : value) : list event :=
  match k with
  | O => []
  | S k' => (poll_round i getUrl ++ poll_rounds k' i getUrl)%list
  end.

Definition is_get (e : event) : bool :=
  match e with EvGet _ _ => true | _ => false end.

Definition is_sleep (ms : Z) (e : event) : bool :=
  match e with EvSleep _ ms' => Z.eqb ms' ms | _ => false end.

(** Number of GET attempts, and of waits of [ms] milliseconds, in a trace. *)
Definition count_gets (t : list event) : nat :=
  List.length (filter is_get t).

Definition count_sleeps (ms : Z) (t : list event) : nat :=
  List.length (filter (is_sleep ms) t).

(** The response reports the status [status]. *)
Definition reports (responseData : value) (status : string) : Prop :=
  Js.get responseData "status" = inl (VStr status).

(** The response carries a readable status that is neither "failed" nor
    "succeeded" (a response without any [status] included). *)
Definition is_pending (responseData : value) : bool :=
  match Js.get responseData "status" with
  | inl status =>
      negb (Js.strict_eq_str status "failed")
      && negb (Js.strict_eq_str status "succeeded")
  | inr _ => false
  end.

(** The [if]/[else if] on [responseData.status] that ends an iteration:
    [pre] holds the events of the iteration so far, [n] counts the
    requests issued, [fuel] is left for the iterations to come. *)
Definition status_check (http : nat -> http_result) (fuel i : nat)
           (getUrl : value) (numErrors : nat) (responseData : value)
           (pre : list event) (n : nat) : run value :=
  match Js.get responseData "status" with
  | inr e => {| result := Throw e; trace := pre; calls := n |}
  | inl status =>
      if Js.strict_eq_str status "failed"
      then {| result := Throw (NodeApiError "Prediction failed" responseData);
              trace := pre; calls := n |}
      else if Js.strict_eq_str status "succeeded"
      then {| result := Ret responseData; trace := pre; calls := n |}
      else prepend pre (poll_loop http fuel i getUrl numErrors responseData n)
  end.

(** The request body [execute] builds for an item. *)
Definition submission_body (it : item) : value :=
  VObj [("version", VStr (modelVersion it));
        ("input", VObj (mapProperties (properties it)))].

Definition submission (i : nat) (it : item) : event :=
  EvPost i "https://api.replicate.com/v1/predictions" (submission_body it).

(** [res.urls?.get] read off a response that is an object. *)
Definition status_url (res : value) : value :=
  match res with
  | VObj fields =>
      match Js.obj_get fields "urls" with
      | VObj urls => Js.obj_get urls "get"
      | _ => VUndefined
      end
  | _ => VUndefined
  end.


(** A POST event. *)
Definition is_post (e : event) : bool :=
  match e with EvPost _ _ _ => true | _ => false end.

(** The time spent waiting in a trace, in milliseconds. *)
Fixpoint total_wait (t : list event) : Z :=
  match t with
  | [] => 0%Z
  | EvSleep _ ms :: t' => (ms + total_wait t')%Z
  | _ :: t' => total_wait t'
  end.

(** The waits and requests of a trace add up: one fixed delay per GET, and
    no waiting time besides the fixed delays and the backoffs. *)
Definition accounted (t : list event) : Prop :=
  count_sleeps poll_delay t = count_gets t
  /\ total_wait t
     = (poll_delay * Z.of_nat (count_gets t)
        + backoff_delay * Z.of_nat (count_sleeps backoff_delay t))%Z.

(** The submissions of the items of a batch, the first one at index [i]. *)
Fixpoint submissions (i : nat) (items : list item) : list event :=
  match items with
  | [] => []
  | it :: rest => submission i it :: submissions (S i) rest
  end.

(** A selection as the form stores it: the chosen option and one slot. *)
Definition selection (option slot : string) (v : value) : obj :=
  [("key", VStr option); (slot, v)].

(* ------------------------------------------------------------------ *)
(** ** Sample inputs *)
(* ------------------------------------------------------------------ *)

(** A boolean selection whose slot was never populated, and a number
    selection likewise. *)
Definition unset_boolean : obj := [("key", VStr "flag|boolean")].

Definition unset_number : obj := [("key", VStr "steps|number")].

(** The timestamps and identifiers of the specification's examples. *)
Definition example_getTime (s : string) : Z :=
  if String.eqb s "2023-01-01" then 1672531200000
  else if String.eqb s "2023-06-01" then 1685577600000
  else if String.eqb s "2023-03-01" then 1677628800000
  else 0.

(** The specification's example: "starting", "processing", then
    "succeeded" with output 42. *)
Definition succeeded_42 : value :=
  VObj [("status", VStr "succeeded"); ("output", VNum 42)].

Definition three_polls : list http_result :=
  [ Response (VObj [("status", VStr "starting")]);
    Response (VObj [("status", VStr "processing")]);
    Response succeeded_42 ].

Definition failed_payload : value :=
  VObj [("status", VStr "failed"); ("error", VStr "out of memory")].

(** A service that answers every poll with "canceled". *)
Definition always_canceled : nat -> http_result :=
  fun _ => Response (VObj [("status", VStr "canceled")]).

(** An item with no input selection. *)
Definition one_item : item := {| modelVersion := "v1"; properties := [] |}.

(** A submission response with a status URL, and a failing connection. *)
Definition accepted : http_result :=
  Response (VObj [("urls", VObj [("get", VStr "u")])]).

Definition connection_reset : http_result := Rejected (VStr "ECONNRESET").

(** The specification's example: items A, B, C where the submission of B
    is answered without a status URL. *)
Definition item_A : item := {| modelVersion := "va"; properties := [] |}.

Definition item_B : item := {| modelVersion := "vb"; properties := [] |}.

Definition item_C : item := {| modelVersion := "vc"; properties := [] |}.

Definition B_rejected_script : list http_result :=
  [ accepted; Response succeeded_42; Response (VObj [("id", VStr "p2")]);
    accepted; Response succeeded_42 ].

(** A submission answered with a status URL and, already, the status
    "succeeded"; the first poll then answers the final payload. *)
Definition early_success_script : list http_result :=
  [ Response (VObj [("urls", VObj [("get", VStr "u")]);
                    ("status", VStr "succeeded")]);
    Response succeeded_42 ].

(** A schema with a string and an integer property. *)
Definition sample_schema : list (string * ReplicateProperty) :=
  [ ("prompt", {| title := "Prompt"; description := "Input prompt";
                  type := "string" |});
    ("steps", {| title := "Steps"; description := "Denoising steps";
                 type := "integer" |}) ].

(* ------------------------------------------------------------------ *)
(** * Properties of the schema translator *)
(* ------------------------------------------------------------------ *)

Lemma coerceType_unfold (t : string) :
  coerceType t =
  if String.eqb t "integer" || String.eqb t "number" then "number"
  else if String.eqb t "boolean" then "boolean" else "string".
Proof.
  unfold coerceType, Js.arr_includes; cbn [existsb].
  rewrite !orb_false_r. reflexivity.
Qed.

(** C7: the schema type coercion is total and idempotent.  Every declared
    type is sent to one of "number", "boolean", "string": to "number"
    exactly for "integer" and "number", to "boolean" exactly for
    "boolean", to "string" for everything else; there is no error result,
    and coercing an output again changes nothing. *)
Theorem coerceType_total_idempotent (t : string) :
  In (coerceType t) ["number"; "boolean"; "string"]
  /\ (coerceType t = "number" <-> t = "integer" \/ t = "number")
  /\ (coerceType t = "boolean" <-> t = "boolean")
  /\ (coerceType t = "string"
      <-> t <> "integer" /\ t <> "number" /\ t <> "boolean")
  /\ coerceType (coerceType t) = coerceType t.
Proof.
  rewrite (coerceType_unfold (coerceType t)), coerceType_unfold.
  destruct (String.eqb_spec t "integer") as [Hi | Hi];
    [ subst t; cbn; intuition congruence | ].
  destruct (String.eqb_spec t "number") as [Hn | Hn];
    [ subst t; cbn; intuition congruence | ].
  destruct (String.eqb_spec t "boolean") as [Hb | Hb];
    [ subst t; cbn; intuition congruence | ].
  cbn; intuition congruence.
Qed.

(** The declared types the specification lists, one by one. *)
Example coerceType_listed_types :
  map coerceType ["integer"; "number"; "boolean"; "string"; "array"; "object"]
  = ["number"; "number"; "boolean"; "string"; "string"; "string"].
Proof. reflexivity. Qed.

(** ** Request-body assembly *)

Lemma split_nonempty (c : ascii) (s : string) : Js.split c s <> [].
Proof.
  destruct s as [| a s]; cbn; [discriminate |].
  destruct (Ascii.eqb a c); [discriminate |].
  destruct (Js.split c s); discriminate.
Qed.

Lemma split_without_sep (c : ascii) (s : string) :
  has_char c s = false -> Js.split c s = [s].
Proof.
  induction s as [| a s IH]; cbn; [reflexivity |].
  intros H. apply orb_false_iff in H as [Ha Hs].
  rewrite Ha, (IH Hs). reflexivity.
Qed.

Lemma split_at_first_sep (c : ascii) (a b : string) :
  has_char c a = false ->
  Js.split c (a ++ String c b) = a :: Js.split c b.
Proof.
  induction a as [| x a IH]; cbn.
  - intros _. rewrite Ascii.eqb_refl. reflexivity.
  - intros H. apply orb_false_iff in H as [Hx Ha].
    rewrite Hx, (IH Ha). reflexivity.
Qed.







(** Likewise an unpopulated number slot does not default to [0]. *)
Lemma mapProperties_number_default_not_zero :
  Js.obj_get (mapProperties [unset_number]) "steps" <> VNum 0.
Proof. vm_compute. discriminate. Qed.

(** The fallback of [mapProperties] agrees with the declared field default
    for the string slot only. *)
Example mapProperties_fallback_and_field_defaults :
  Js.obj_get (mapProperties [unset_boolean]) "flag"
  <> field_default "booleanValue"
  /\ Js.obj_get (mapProperties [unset_number]) "steps"
     <> field_default "numberValue"
  /\ Js.obj_get (mapProperties [[("key", VStr "prompt|string")]]) "prompt"
     = field_default "stringValue".
Proof. vm_compute. repeat split; discriminate. Qed.

Example mapProperties_defaults_computed :
  mapProperties [unset_boolean; unset_number]
  = [("flag", VStr ""); ("steps", VStr "")].
Proof. reflexivity. Qed.

(** ** Version listing *)

Lemma prefix_spec (sub s : string) :
  String.prefix sub s = true <-> exists post, s = sub ++ post.
Proof.
  revert s. induction sub as [| a sub IH]; intros [| b s]; cbn.
  - split; [intros _; exists ""; reflexivity | reflexivity].
  - split; [intros _; exists (String b s); reflexivity | reflexivity].
  - split; [discriminate | intros [post H]; discriminate H].
  - destruct (Ascii.ascii_dec a b) as [-> | Hab].
    + rewrite IH. split; intros [post H]; exists post.
      * rewrite H. reflexivity.
      * injection H as H. exact H.
    + split; [discriminate |].
      intros [post H]. injection H as H1 H2. congruence.
Qed.

(** [includes] decides the substring relation. *)
Lemma includes_spec (s sub : string) :
  Js.includes s sub = true <-> exists pre post, s = pre ++ sub ++ post.
Proof.
  induction s as [| a s IH].
  - cbn [Js.includes]. rewrite orb_false_r, prefix_spec. split.
    + intros [post H]. exists "", post. exact H.
    + intros [pre [post H]]. destruct pre as [| x pre]; [| discriminate H].
      exists post. exact H.
  - cbn [Js.includes]. rewrite orb_true_iff, prefix_spec, IH. split.
    + intros [[post H] | [pre [post H]]].
      * exists "", post. exact H.
      * exists (String a pre), post. rewrite H. reflexivity.
    + intros [pre [post H]]. destruct pre as [| x pre].
      * left. exists post. exact H.
      * right. injection H as _ H. exists pre, post. exact H.
Qed.

Lemma includes_empty (s : string) : Js.includes s "" = true.
Proof. apply includes_spec. exists "", s. reflexivity. Qed.

Section SortFacts.

Context {A : Type} (cmp : A -> A -> Z).



End SortFacts.

Section VersionFacts.

Variable getTime : string -> Z.





End VersionFacts.


Example getModelVersions_sort_example :
  map item_value
      (getModelVersions example_getTime "owner/model" None
         [ {| id := "T1"; created_at := "2023-01-01" |};
           {| id := "T2"; created_at := "2023-06-01" |};
           {| id := "T3"; created_at := "2023-03-01" |} ])
  = ["T2"; "T3"; "T1"].
Proof. vm_compute. reflexivity. Qed.

Example getModelVersions_filter_example :
  let versions :=
    [ {| id := "abc123"; created_at := "2023-01-01" |};
      {| id := "abc456"; created_at := "2023-01-01" |};
      {| id := "xyz789"; created_at := "2023-01-01" |} ] in
  map item_value
      (getModelVersions example_getTime "owner/model" (Some "abc") versions)
  = ["abc123"; "abc456"]
  /\ map item_value
         (getModelVersions example_getTime "owner/model" (Some "") versions)
     = ["abc123"; "abc456"; "xyz789"].
Proof. vm_compute. split; reflexivity. Qed.

(* ------------------------------------------------------------------ *)
(** * Properties of the job client *)
(* ------------------------------------------------------------------ *)

Open Scope list_scope.

Lemma reports_canceled_pending (responseData : value) :
  reports responseData "canceled" -> is_pending responseData = true.
Proof. unfold reports, is_pending. intros ->. reflexivity. Qed.

Lemma poll_rounds_counts (k i : nat) (getUrl : value) :
  count_gets (poll_rounds k i getUrl) = k
  /\ count_sleeps poll_delay (poll_rounds k i getUrl) = k
  /\ count_sleeps backoff_delay (poll_rounds k i getUrl) = 0.
Proof.
  unfold count_gets, count_sleeps.
  induction k as [| k [IHg [IHs IHb]]]; cbn; [auto |].
  rewrite IHg, IHs, IHb. auto.
Qed.

Lemma poll_rounds_app (j k i : nat) (getUrl : value) :
  poll_rounds (j + k) i getUrl
  = poll_rounds j i getUrl ++ poll_rounds k i getUrl.
Proof.
  induction j as [| j IH]; cbn; [reflexivity |]. rewrite IH. reflexivity.
Qed.

Lemma prepend_nil {A : Type} (r : run A) : prepend [] r = r.
Proof. destruct r. reflexivity. Qed.

Lemma prepend_prepend {A : Type} (t1 t2 : list event) (r : run A) :
  prepend t1 (prepend t2 r) = prepend (t1 ++ t2) r.
Proof. unfold prepend; cbn. rewrite app_assoc. reflexivity. Qed.

Section PollingFacts.

Variable http : nat -> http_result.

(** One iteration of the polling loop, case by case. *)
Lemma poll_loop_step (fuel i : nat) (getUrl : value) (numErrors : nat)
      (responseData : value) (n : nat) :
  poll_loop http (S fuel) i getUrl numErrors responseData n
  = match http n with
    | Response body =>
        status_check http fuel i getUrl numErrors body (poll_round i getUrl)
                     (S n)
    | Rejected e =>
        if (2 <? S numErrors)%nat
        then {| result :=
                  Throw (NodeApiError "Error getting data from replicate" e);
                trace := poll_round i getUrl; calls := S n |}
        else status_check http fuel i getUrl (S numErrors) responseData
                          (poll_round i getUrl ++ [EvSleep i backoff_delay])
                          (S n)
    end.
Proof.
  cbn [poll_loop]. unfold status_check, bind, sleep, request, prepend.
  cbn [result trace calls app].
  destruct (http n) as [body | e].
  - cbn. destruct (Js.get body "status") as [status | err]; cbn;
      [| reflexivity].
    destruct (Js.strict_eq_str status "failed"); [reflexivity |].
    destruct (Js.strict_eq_str status "succeeded"); reflexivity.
  - destruct (2 <? S numErrors)%nat; [reflexivity |]. cbn.
    destruct (Js.get responseData "status") as [status | err]; cbn;
      [| reflexivity].
    destruct (Js.strict_eq_str status "failed"); [reflexivity |].
    destruct (Js.strict_eq_str status "succeeded"); reflexivity.
Qed.

Lemma status_check_pending (fuel i : nat) (getUrl : value) (numErrors : nat)
      (responseData : value) (pre : list event) (n : nat) :
  is_pending responseData = true ->
  status_check http fuel i getUrl numErrors responseData pre n
  = prepend pre (poll_loop http fuel i getUrl numErrors responseData n).
Proof.
  unfold is_pending, status_check.
  destruct (Js.get responseData "status") as [status | err];
    [| discriminate].
  destruct (Js.strict_eq_str status "failed"); [discriminate |].
  destruct (Js.strict_eq_str status "succeeded"); [discriminate |].
  reflexivity.
Qed.

Lemma status_check_succeeded (fuel i : nat) (getUrl : value)
      (numErrors : nat) (responseData : value) (pre : list event) (n : nat) :
  reports responseData "succeeded" ->
  status_check http fuel i getUrl numErrors responseData pre n
  = {| result := Ret responseData; trace := pre; calls := n |}.
Proof. unfold reports, status_check. intros ->. reflexivity. Qed.

Lemma status_check_failed (fuel i : nat) (getUrl : value)
      (numErrors : nat) (responseData : value) (pre : list event) (n : nat) :
  reports responseData "failed" ->
  status_check http fuel i getUrl numErrors responseData pre n
  = {| result := Throw (NodeApiError "Prediction failed" responseData);
       trace := pre; calls := n |}.
Proof. unfold reports, status_check. intros ->. reflexivity. Qed.

(** [k] successful polls in a row that all report a non-terminal status
    take [k] rounds and leave the loop where it was, up to the stale
    [responseData]. *)
Lemma poll_loop_pending_prefix (k fuel i : nat) (getUrl : value)
      (numErrors : nat) (responseData : value) (n : nat) :
  (forall j, j < k ->
             exists body, http (n + j) = Response body
                          /\ is_pending body = true) ->
  exists responseData',
    poll_loop http (k + fuel) i getUrl numErrors responseData n
    = prepend (poll_rounds k i getUrl)
              (poll_loop http fuel i getUrl numErrors responseData' (n + k)).
Proof.
  revert responseData n.
  induction k as [| k IH]; intros responseData n Hpending.
  - exists responseData. rewrite Nat.add_0_r. cbn [Nat.add poll_rounds].
    rewrite prepend_nil. reflexivity.
  - destruct (Hpending 0 (Nat.lt_0_succ k)) as [body [Hbody Hp]].
    rewrite Nat.add_0_r in Hbody.
    destruct (IH body (S n)) as [responseData' Hrest].
    { intros j Hj. destruct (Hpending (S j)) as [b Hb]; [lia |].
      exists b. rewrite Nat.add_succ_r in Hb. exact Hb. }
    exists responseData'.
    change (S k + fuel) with (S (k + fuel)).
    rewrite poll_loop_step, Hbody, (status_check_pending _ _ _ _ _ _ _ Hp).
    rewrite Hrest, prepend_prepend, Nat.add_succ_r. reflexivity.
Qed.

End PollingFacts.

Section PollingOutcomes.

Variable http : nat -> http_result.

Lemma result_prepend {A : Type} (t : list event) (r : run A) :
  result (prepend t r) = result r.
Proof. reflexivity. Qed.

(** The iteration budget only cuts runs short: a loop that has returned or
    thrown within [fuel] iterations does the same with any larger budget. *)
Lemma poll_loop_fuel_mono (fuel fuel' i : nat) (getUrl : value)
      (numErrors : nat) (responseData : value) (n : nat) :
  result (poll_loop http fuel i getUrl numErrors responseData n) <> Running ->
  fuel <= fuel' ->
  poll_loop http fuel' i getUrl numErrors responseData n
  = poll_loop http fuel i getUrl numErrors responseData n.
Proof.
  revert fuel' numErrors responseData n.
  induction fuel as [| fuel IH];
    intros fuel' numErrors responseData n Hdone Hle.
  - exfalso. apply Hdone. reflexivity.
  - destruct fuel' as [| fuel']; [lia |]. apply le_S_n in Hle.
    rewrite poll_loop_step in Hdone. rewrite !poll_loop_step.
    assert (Hcheck : forall ne rd pre,
               result (status_check http fuel i getUrl ne rd pre (S n))
               <> Running ->
               status_check http fuel' i getUrl ne rd pre (S n)
               = status_check http fuel i getUrl ne rd pre (S n)).
    { intros ne rd pre. unfold status_check.
      destruct (Js.get rd "status") as [status | err]; [| reflexivity].
      destruct (Js.strict_eq_str status "failed"); [reflexivity |].
      destruct (Js.strict_eq_str status "succeeded"); [reflexivity |].
      rewrite result_prepend. intros H. rewrite (IH _ _ _ _ H Hle).
      reflexivity. }
    destruct (http n) as [body | e]; [apply Hcheck, Hdone |].
    destruct (2 <? S numErrors)%nat; [reflexivity | apply Hcheck, Hdone].
Qed.

(** A rejected poll below the error cap, when the response of an earlier
    poll of the same job is at hand: the extended delay, then the loop
    goes round again with the counter incremented. *)
Lemma poll_loop_rejection_retries (fuel i : nat) (getUrl : value)
      (numErrors : nat) (responseData e : value) (n : nat) :
  is_pending responseData = true ->
  http n = Rejected e ->
  numErrors < 2 ->
  poll_loop http (S fuel) i getUrl numErrors responseData n
  = prepend (poll_round i getUrl ++ [EvSleep i backoff_delay])
            (poll_loop http fuel i getUrl (S numErrors) responseData (S n)).
Proof.
  intros Hp He Hlt. rewrite poll_loop_step, He.
  destruct (Nat.ltb_spec 2 (S numErrors)); [lia |].
  apply status_check_pending, Hp.
Qed.

(** The third rejection is fatal and is not followed by a backoff. *)
Lemma poll_loop_rejection_fatal (fuel i : nat) (getUrl : value)
      (numErrors : nat) (responseData e : value) (n : nat) :
  http n = Rejected e ->
  2 <= numErrors ->
  poll_loop http (S fuel) i getUrl numErrors responseData n
  = {| result := Throw (NodeApiError "Error getting data from replicate" e);
       trace := poll_round i getUrl; calls := S n |}.
Proof.
  intros He Hge. rewrite poll_loop_step, He.
  destruct (Nat.ltb_spec 2 (S numErrors)); [reflexivity | lia].
Qed.

(** Three rejections in a row, met while the last response received for
    the job is a non-terminal one: three GET attempts, a backoff after the
    first two only, then the polling error carrying the last rejection. *)
Lemma poll_loop_three_rejections (fuel i : nat) (getUrl : value)
      (responseData e1 e2 e3 : value) (n : nat) :
  is_pending responseData = true ->
  http n = Rejected e1 ->
  http (S n) = Rejected e2 ->
  http (S (S n)) = Rejected e3 ->
  poll_loop http (3 + fuel) i getUrl 0 responseData n
  = {| result := Throw (NodeApiError "Error getting data from replicate" e3);
       trace := poll_round i getUrl ++ [EvSleep i backoff_delay]
                ++ poll_round i getUrl ++ [EvSleep i backoff_delay]
                ++ poll_round i getUrl;
       calls := 3 + n |}.
Proof.
  intros Hp H1 H2 H3. cbn [Nat.add].
  rewrite (poll_loop_rejection_retries _ _ _ _ _ _ _ Hp H1) by lia.
  rewrite (poll_loop_rejection_retries _ _ _ _ _ _ _ Hp H2) by lia.
  rewrite (poll_loop_rejection_fatal _ _ _ _ responseData _ _ H3) by lia.
  reflexivity.
Qed.

(** The same rejection met before any response has been received:
    [responseData] is still [undefined] when its [status] is read. *)
Lemma poll_loop_rejection_before_any_response (fuel i : nat)
      (getUrl : value) (numErrors : nat) (e : value) (n : nat) :
  http n = Rejected e ->
  numErrors < 2 ->
  poll_loop http (S fuel) i getUrl numErrors VUndefined n
  = {| result := Throw TypeError;
       trace := poll_round i getUrl ++ [EvSleep i backoff_delay];
       calls := S n |}.
Proof.
  intros He Hlt. rewrite poll_loop_step, He.
  destruct (Nat.ltb_spec 2 (S numErrors)); [lia | reflexivity].
Qed.

(** And met while [responseData] still holds the final response of the
    previous item: the loop ends at once with that stale response. *)
Lemma poll_loop_rejection_with_stale_success (fuel i : nat)
      (getUrl : value) (numErrors : nat) (responseData e : value) (n : nat) :
  reports responseData "succeeded" ->
  http n = Rejected e ->
  numErrors < 2 ->
  poll_loop http (S fuel) i getUrl numErrors responseData n
  = {| result := Ret responseData;
       trace := poll_round i getUrl ++ [EvSleep i backoff_delay];
       calls := S n |}.
Proof.
  intros Hs He Hlt. rewrite poll_loop_step, He.
  destruct (Nat.ltb_spec 2 (S numErrors)); [lia |].
  apply status_check_succeeded, Hs.
Qed.

(** What the loop can return and what it can throw. *)
Lemma poll_loop_result (fuel i : nat) (getUrl : value) (numErrors : nat)
      (responseData : value) (n : nat) :
  match result (poll_loop http fuel i getUrl numErrors responseData n) with
  | Ret v => reports v "succeeded"
  | Throw e =>
      e = TypeError
      \/ (exists r, e = NodeApiError "Prediction failed" r)
      \/ (exists r, e = NodeApiError "Error getting data from replicate" r)
  | Running => True
  end.
Proof.
  revert numErrors responseData n.
  induction fuel as [| fuel IH]; intros numErrors responseData n;
    [exact I |].
  assert (Hcheck : forall ne rd pre,
             match result (status_check http fuel i getUrl ne rd pre (S n))
             with
             | Ret v => reports v "succeeded"
             | Throw e =>
                 e = TypeError
                 \/ (exists r, e = NodeApiError "Prediction failed" r)
                 \/ (exists r,
                       e = NodeApiError "Error getting data from replicate" r)
             | Running => True
             end).
  { intros ne rd pre. unfold status_check, reports.
    destruct (Js.get rd "status") as [status | err] eqn:Hget.
    - destruct (Js.strict_eq_str status "failed"); cbn; [eauto |].
      destruct (Js.strict_eq_str status "succeeded") eqn:Hs; cbn.
      + destruct status; try discriminate Hs. cbn in Hs.
        apply String.eqb_eq in Hs. subst. exact Hget.
      + apply IH.
    - cbn. left. destruct rd; cbn in Hget; congruence. }
  rewrite poll_loop_step. destruct (http n) as [body | e]; [apply Hcheck |].
  destruct (2 <? S numErrors)%nat; [cbn; eauto | apply Hcheck].
Qed.

End PollingOutcomes.

(** ** The polling loop on successful polls *)

(** The loop after [k - 1] non-terminal polls, just before poll [k]. *)
Lemma poll_loop_reaches_kth_poll (http : nat -> http_result)
      (fuel i : nat) (getUrl : value) (numErrors : nat)
      (responseData : value) (n k : nat) :
  0 < k -> k <= fuel ->
  (forall j, j < k - 1 ->
             exists body, http (n + j) = Response body
                          /\ is_pending body = true) ->
  exists responseData',
    poll_loop http fuel i getUrl numErrors responseData n
    = prepend (poll_rounds (k - 1) i getUrl)
              (poll_loop http (S (fuel - k)) i getUrl numErrors
                         responseData' (n + (k - 1))).
Proof.
  intros Hk Hfuel Hpending.
  destruct (poll_loop_pending_prefix http (k - 1) (S (fuel - k)) i getUrl
              numErrors responseData n Hpending) as [responseData' Hrun].
  exists responseData'. rewrite <- Hrun. f_equal. lia.
Qed.

Lemma poll_rounds_snoc (k i : nat) (getUrl : value) :
  0 < k ->
  poll_rounds (k - 1) i getUrl ++ poll_round i getUrl = poll_rounds k i getUrl.
Proof.
  intros Hk. replace k with ((k - 1) + 1) at 2 by lia.
  rewrite poll_rounds_app. cbn [poll_rounds]. rewrite app_nil_r. reflexivity.
Qed.

(** C1: polling success path.  When polls 1..k-1 are answered with a
    status that is neither "failed" nor "succeeded" and poll k with
    "succeeded", the loop makes exactly k GET attempts, each preceded by
    the fixed delay (5000 ms) and no other wait, and returns the k-th
    response payload whole. *)
Theorem poll_loop_returns_kth_response (http : nat -> http_result)
        (fuel i : nat) (getUrl : value) (numErrors : nat)
        (responseData : value) (n k : nat) (final : value) :
  0 < k -> k <= fuel ->
  (forall j, j < k - 1 ->
             exists body, http (n + j) = Response body
                          /\ is_pending body = true) ->
  http (n + (k - 1)) = Response final ->
  reports final "succeeded" ->
  let r := poll_loop http fuel i getUrl numErrors responseData n in
  result r = Ret final
  /\ trace r = poll_rounds k i getUrl
  /\ count_gets (trace r) = k
  /\ count_sleeps poll_delay (trace r) = k
  /\ count_sleeps backoff_delay (trace r) = 0
  /\ calls r = n + k.
Proof.
  intros Hk Hfuel Hpending Hfinal Hsucc r.
  destruct (poll_loop_reaches_kth_poll http fuel i getUrl numErrors
              responseData n k Hk Hfuel Hpending) as [rd' Hrun].
  assert (Hr : r = {| result := Ret final; trace := poll_rounds k i getUrl;
                      calls := n + k |}).
  { unfold r. rewrite Hrun, poll_loop_step, Hfinal.
    rewrite (status_check_succeeded http _ _ _ _ _ _ _ Hsucc).
    unfold prepend; cbn [result trace calls].
    rewrite (poll_rounds_snoc k i getUrl Hk). f_equal. lia. }
  rewrite Hr; cbn [result trace calls].
  destruct (poll_rounds_counts k i getUrl) as [Hg [Hs Hb]].
  repeat split; assumption.
Qed.

Lemma poll_loop_returns_kth_response_witness :
  let r := poll_loop (scripted three_polls) 3 0 (VStr "u") 0 VUndefined 0 in
  result r = Ret succeeded_42
  /\ trace r = poll_rounds 3 0 (VStr "u")
  /\ count_gets (trace r) = 3
  /\ count_sleeps poll_delay (trace r) = 3
  /\ count_sleeps backoff_delay (trace r) = 0
  /\ calls r = 0 + 3.
Proof.
  apply (poll_loop_returns_kth_response
           (scripted three_polls) 3 0 (VStr "u") 0 VUndefined 0 3
           succeeded_42).
  - lia.
  - lia.
  - intros j Hj. destruct j as [| [| j]]; [| | lia];
      eexists; split; reflexivity.
  - reflexivity.
  - reflexivity.
Defined.

(** C2: polling failure path.  A response reporting "failed" ends the loop
    at once with the "Prediction failed" error carrying that response
    payload whole: after k-1 non-terminal polls the k-th, failed, poll is
    the last request made; for k = 1 exactly one poll attempt is made. *)
Theorem poll_loop_failed_raises (http : nat -> http_result)
        (fuel i : nat) (getUrl : value) (numErrors : nat)
        (responseData : value) (n k : nat) (final : value) :
  0 < k -> k <= fuel ->
  (forall j, j < k - 1 ->
             exists body, http (n + j) = Response body
                          /\ is_pending body = true) ->
  http (n + (k - 1)) = Response final ->
  reports final "failed" ->
  let r := poll_loop http fuel i getUrl numErrors responseData n in
  result r = Throw (NodeApiError "Prediction failed" final)
  /\ trace r = poll_rounds k i getUrl
  /\ count_gets (trace r) = k
  /\ calls r = n + k.
Proof.
  intros Hk Hfuel Hpending Hfinal Hfailed r.
  destruct (poll_loop_reaches_kth_poll http fuel i getUrl numErrors
              responseData n k Hk Hfuel Hpending) as [rd' Hrun].
  assert (Hr : r = {| result := Throw (NodeApiError "Prediction failed" final);
                      trace := poll_rounds k i getUrl; calls := n + k |}).
  { unfold r. rewrite Hrun, poll_loop_step, Hfinal.
    rewrite (status_check_failed http _ _ _ _ _ _ _ Hfailed).
    unfold prepend; cbn [result trace calls].
    rewrite (poll_rounds_snoc k i getUrl Hk). f_equal. lia. }
  rewrite Hr; cbn [result trace calls].
  destruct (poll_rounds_counts k i getUrl) as [Hg _].
  repeat split; assumption.
Qed.

Lemma poll_loop_failed_raises_witness :
  let r := poll_loop (scripted [Response failed_payload]) 1 0 (VStr "u") 0
                     VUndefined 0 in
  result r = Throw (NodeApiError "Prediction failed" failed_payload)
  /\ trace r = poll_rounds 1 0 (VStr "u")
  /\ count_gets (trace r) = 1
  /\ calls r = 0 + 1.
Proof.
  apply (poll_loop_failed_raises
           (scripted [Response failed_payload]) 1 0 (VStr "u") 0 VUndefined
           0 1 failed_payload).
  - lia.
  - lia.
  - intros j Hj. lia.
  - reflexivity.
  - reflexivity.
Defined.

(** C10: no exit on "canceled".  While every poll is answered, and
    answered with "canceled" or any other status that is neither
    "succeeded" nor "failed", the loop is still running after any number
    of iterations, having made one GET attempt per iteration: it never
    returns and never throws. *)
Theorem poll_loop_runs_forever_while_pending (http : nat -> http_result)
        (i : nat) (getUrl : value) (numErrors : nat) (responseData : value)
        (n : nat) :
  (forall j, exists body,
        http (n + j) = Response body
        /\ (reports body "canceled" \/ is_pending body = true)) ->
  forall fuel,
    poll_loop http fuel i getUrl numErrors responseData n
    = {| result := Running; trace := poll_rounds fuel i getUrl;
         calls := n + fuel |}.
Proof.
  intros Hall fuel.
  destruct (poll_loop_pending_prefix http fuel 0 i getUrl numErrors
              responseData n) as [rd' Hrun].
  { intros j _. destruct (Hall j) as [body [Hbody Hst]]. exists body.
    split; [exact Hbody |].
    destruct Hst as [Hc | Hp]; [| exact Hp].
    apply reports_canceled_pending, Hc. }
  rewrite Nat.add_0_r in Hrun. rewrite Hrun.
  unfold prepend; cbn. rewrite app_nil_r. reflexivity.
Qed.

Lemma poll_loop_runs_forever_while_pending_witness :
  poll_loop always_canceled 7 0 (VStr "u") 0 VUndefined 1
  = {| result := Running; trace := poll_rounds 7 0 (VStr "u");
       calls := 1 + 7 |}.
Proof.
  apply (poll_loop_runs_forever_while_pending
           always_canceled 0 (VStr "u") 0 VUndefined 1).
  intros j. exists (VObj [("status", VStr "canceled")]).
  split; [reflexivity | left; reflexivity].
Defined.

(** ** Rejected polls *)

(** C3 on the code: three rejected polls in a row for the first item of a
    batch, starting with its first poll.  No polling error is raised after
    three attempts: after the first rejection and its backoff the loop
    reads [status] from the still undefined [responseData] and the run
    ends in a TypeError, one GET attempt having been made. *)
Theorem execute_three_rejections_type_error (fuel : nat) :
  execute (scripted [accepted; connection_reset; connection_reset;
                     connection_reset])
          (S fuel) "model" "prediction" [one_item] 0
  = {| result := Throw TypeError;
       trace := [submission 0 one_item;
                 EvSleep 0 5000; EvGet 0 (VStr "u"); EvSleep 0 10000];
       calls := 2 |}.
Proof. reflexivity. Qed.

(** The cap works as intended once a response has been received: the same
    three rejections after a first poll answered "starting". *)
Example execute_three_rejections_after_a_response (fuel : nat) :
  execute (scripted [accepted; Response (VObj [("status", VStr "starting")]);
                     connection_reset; connection_reset;
                     Rejected (VStr "ETIMEDOUT")])
          (4 + fuel) "model" "prediction" [one_item] 0
  = {| result := Throw (NodeApiError "Error getting data from replicate"
                                     (VStr "ETIMEDOUT"));
       trace := [submission 0 one_item;
                 EvSleep 0 5000; EvGet 0 (VStr "u");
                 EvSleep 0 5000; EvGet 0 (VStr "u"); EvSleep 0 10000;
                 EvSleep 0 5000; EvGet 0 (VStr "u"); EvSleep 0 10000;
                 EvSleep 0 5000; EvGet 0 (VStr "u")];
       calls := 5 |}.
Proof. reflexivity. Qed.

(** C4 on the code: a single rejected poll, the very first of the first
    item, with the job succeeding on the next poll.  The loop does wait
    the extended delay but does not go round again: it throws a TypeError
    and the second poll is never made. *)
Theorem execute_first_poll_rejected_type_error (fuel : nat) :
  execute (scripted [accepted; connection_reset; Response succeeded_42])
          (S fuel) "model" "prediction" [one_item] 0
  = {| result := Throw TypeError;
       trace := [submission 0 one_item;
                 EvSleep 0 5000; EvGet 0 (VStr "u"); EvSleep 0 10000];
       calls := 2 |}.
Proof. reflexivity. Qed.

(** The same rejection on the first poll of a second item ends that item
    with the first item's payload, its own job never polled again. *)
Example execute_first_poll_rejected_second_item (fuel : nat) :
  execute (scripted [accepted; Response succeeded_42;
                     accepted; connection_reset])
          (S fuel) "model" "prediction" [one_item; one_item] 0
  = {| result := Ret [[ {| json := succeeded_42; pairedItem := 0 |};
                        {| json := succeeded_42; pairedItem := 1 |} ]];
       trace := [submission 0 one_item;
                 EvSleep 0 5000; EvGet 0 (VStr "u");
                 submission 1 one_item;
                 EvSleep 1 5000; EvGet 1 (VStr "u"); EvSleep 1 10000];
       calls := 4 |}.
Proof. reflexivity. Qed.

(** ** Submission *)

(** The body of the [for] loop, case by case on how the POST settles. *)
Lemma process_item_cases (http : nat -> http_result) (fuel i : nat)
      (it : item) (responseData : value) (n : nat) :
  process_item http fuel i it responseData n
  = match http n with
    | Rejected e =>
        {| result := Throw (HttpError e); trace := [submission i it];
           calls := S n |}
    | Response res =>
        if Js.nullish res
        then {| result := Throw TypeError; trace := [submission i it];
                calls := S n |}
        else if Js.truthy (status_url res)
        then prepend [submission i it]
                     (poll_loop http fuel i (status_url res) 0 responseData
                                (S n))
        else {| result := Throw (NodeApiError "No get url found in response"
                                              res);
                trace := [submission i it]; calls := S n |}
    end.
Proof.
  unfold process_item, bind, request, prepend, submission, submission_body.
  cbn [result trace calls].
  destruct (http n) as [res | e]; [| reflexivity].
  destruct res as [| | b | z | s | elems | fields]; try reflexivity.
  cbn [ret result trace calls lift Js.get Js.nullish status_url app].
  destruct (Js.obj_get fields "urls") as [| | b | z | s | elems | urls];
    try reflexivity.
  cbn [Js.opt_get Js.nullish Js.get lift ret result trace calls app].
  destruct (Js.truthy (Js.obj_get urls "get")); reflexivity.
Qed.



(** A null response body is outside that statement: reading [urls] off it
    throws before the check is reached. *)
Example process_item_null_response (fuel : nat) :
  process_item (scripted [Response VNull]) fuel 0 one_item VUndefined 0
  = {| result := Throw TypeError; trace := [submission 0 one_item];
       calls := 1 |}.
Proof. reflexivity. Qed.

(** ** Batches *)

Section BatchFacts.

Variable http : nat -> http_result.



(** An item that returns has returned a response reporting "succeeded". *)
Lemma process_item_returns (fuel i : nat) (it : item) (responseData : value)
      (n : nat) (v : value) :
  result (process_item http fuel i it responseData n) = Ret v ->
  reports v "succeeded".
Proof.
  rewrite process_item_cases.
  destruct (http n) as [res | e]; [| discriminate].
  destruct (Js.nullish res); [discriminate |].
  destruct (Js.truthy (status_url res)); [| discriminate].
  rewrite result_prepend. intros H.
  assert (Hp := poll_loop_result http fuel i (status_url res) 0
                                 responseData (S n)).
  rewrite H in Hp. exact Hp.
Qed.

(** The [for] loop on a non-empty list: the first item, then the rest. *)
Lemma for_items_cons (fuel i : nat) (it : item) (rest : list item)
      (responseData : value) (returnData : list INodeExecutionData)
      (n : nat) :
  for_items http fuel i (it :: rest) responseData returnData n
  = let r := process_item http fuel i it responseData n in
    match result r with
    | Ret v =>
        prepend (trace r)
                (for_items http fuel (S i) rest v
                           (returnData ++ [{| json := v; pairedItem := i |}])
                           (calls r))
    | Throw e => {| result := Throw e; trace := trace r; calls := calls r |}
    | Running => {| result := Running; trace := trace r; calls := calls r |}
    end.
Proof.
  cbn [for_items]. unfold bind at 1.
  destruct (result (process_item http fuel i it responseData n));
    reflexivity.
Qed.




End BatchFacts.

(** [execute] on the prediction operation is the [for] loop started with
    an undefined [responseData] and an empty [returnData]. *)
Lemma execute_prediction (http : nat -> http_result) (fuel : nat)
      (items : list item) (n : nat) :
  execute http fuel "model" "prediction" items n
  = let r := for_items http fuel 0 items VUndefined [] n in
    {| result := match result r with
                 | Ret returnData => Ret [returnData]
                 | Throw e => Throw e
                 | Running => Running
                 end;
       trace := trace r; calls := calls r |}.
Proof.
  unfold execute. cbn [String.eqb Ascii.eqb Bool.eqb]. unfold bind. cbn zeta.
  destruct (result (for_items http fuel 0 items VUndefined [] n));
    cbn [ret result trace calls]; try rewrite app_nil_r; reflexivity.
Qed.

(** The rejected first poll of the first item, whatever the batch and the
    service: the run ends in a TypeError after the backoff. *)
Lemma execute_first_poll_rejected (http : nat -> http_result) (fuel n : nat)
      (it : item) (rest : list item) (res e : value) :
  http n = Response res ->
  Js.nullish res = false ->
  Js.truthy (status_url res) = true ->
  http (S n) = Rejected e ->
  execute http (S fuel) "model" "prediction" (it :: rest) n
  = {| result := Throw TypeError;
       trace := submission 0 it :: poll_round 0 (status_url res)
                ++ [EvSleep 0 backoff_delay];
       calls := S (S n) |}.
Proof.
  intros Hres Hnn Hurl Hrej.
  rewrite execute_prediction, for_items_cons, process_item_cases.
  rewrite Hres, Hnn, Hurl.
  rewrite (poll_loop_rejection_before_any_response
             http fuel 0 (status_url res) 0 e (S n) Hrej) by lia.
  reflexivity.
Qed.



Example execute_batch_abort_computed :
  execute (scripted B_rejected_script) 5 "model" "prediction"
          [item_A; item_B; item_C] 0
  = {| result := Throw (NodeApiError "No get url found in response"
                                     (VObj [("id", VStr "p2")]));
       trace := [submission 0 item_A; EvSleep 0 5000; EvGet 0 (VStr "u");
                 submission 1 item_B];
       calls := 3 |}.
Proof. reflexivity. Qed.

Example execute_batch_success_computed :
  execute (scripted [accepted; Response succeeded_42;
                     accepted; Response (VObj [("status", VStr "succeeded")])])
          5 "model" "prediction" [item_A; item_B] 0
  = {| result :=
         Ret [[ {| json := succeeded_42; pairedItem := 0 |};
                {| json := VObj [("status", VStr "succeeded")];
                   pairedItem := 1 |} ]];
       trace := [submission 0 item_A; EvSleep 0 5000; EvGet 0 (VStr "u");
                 submission 1 item_B; EvSleep 1 5000; EvGet 1 (VStr "u")];
       calls := 4 |}.
Proof. reflexivity. Qed.

(** Any other resource or operation: nothing is done. *)
Example execute_other_operation (http : nat -> http_result) (fuel n : nat)
        (items : list item) :
  execute http fuel "model" "training" items n
  = {| result := Ret [[]]; trace := []; calls := n |}.
Proof. reflexivity. Qed.

(* ------------------------------------------------------------------ *)
(** * Further properties of the schema translator *)
(* ------------------------------------------------------------------ *)

Lemma coerceType_no_sep (t : string) : has_char "|" (coerceType t) = false.
Proof.
  rewrite coerceType_unfold.
  destruct (String.eqb t "integer" || String.eqb t "number");
    [reflexivity |].
  destruct (String.eqb t "boolean"); reflexivity.
Qed.


(** The option value built for a property splits back into its two halves. *)
Lemma split_option_value (key : string) (t : string) :
  has_char "|" key = false ->
  Js.split "|" (key ++ "|" ++ coerceType t)%string = [key; coerceType t].
Proof.
  intros Hkey.
  change (key ++ "|" ++ coerceType t)%string
    with (key ++ String "|" (coerceType t))%string.
  rewrite (split_at_first_sep _ _ _ Hkey).
  rewrite (split_without_sep _ _ (coerceType_no_sep t)). reflexivity.
Qed.

(** The options offered for a schema whose property names have no '|':
    one per property, in schema order, each value splitting on '|' into
    the property name and its coerced type. *)
Theorem getModelProperties_option_round_trip
        (inputs : list (string * ReplicateProperty)) :
  Forall (fun kv => has_char "|" (fst kv) = false) inputs ->
  map (fun o => Js.split "|" (opt_value o)) (getModelProperties inputs)
  = map (fun kv => [fst kv; coerceType (type (snd kv))]) inputs.
Proof.
  induction 1 as [| [key p] inputs Hkey _ IH]; [reflexivity |].
  cbn [getModelProperties map opt_value fst snd] in *.
  rewrite (split_option_value _ _ Hkey). f_equal. exact IH.
Qed.

Lemma getModelProperties_option_round_trip_witness :
  map (fun o => Js.split "|" (opt_value o)) (getModelProperties sample_schema)
  = [["prompt"; "string"]; ["steps"; "number"]].
Proof.
  apply (getModelProperties_option_round_trip sample_schema).
  repeat constructor.
Defined.



(** ** The assembled request input *)


Lemma obj_set_keys (o : obj) (k : string) (v : value) (k' : string) :
  In k' (map fst (Js.obj_set o k v)) <-> k' = k \/ In k' (map fst o).
Proof.
  induction o as [| [k0 v0] o IH]; cbn.
  - intuition.
  - destruct (String.eqb_spec k0 k) as [-> | Hne]; cbn.
    + intuition.
    + rewrite IH. intuition.
Qed.

Lemma obj_set_NoDup (o : obj) (k : string) (v : value) :
  NoDup (map fst o) -> NoDup (map fst (Js.obj_set o k v)).
Proof.
  induction o as [| [k0 v0] o IH]; cbn; intros Hnd.
  - repeat constructor. intros [].
  - inversion Hnd as [| ? ? Hnotin Hrest]; subst.
    destruct (String.eqb_spec k0 k) as [-> | Hne]; cbn.
    + constructor; assumption.
    + constructor; [| apply IH, Hrest].
      rewrite obj_set_keys. intros [Heq | Hin]; [congruence | contradiction].
Qed.

Lemma obj_set_Forall (P : string * value -> Prop) (o : obj) (k : string)
      (v : value) :
  Forall P o -> P (k, v) -> Forall P (Js.obj_set o k v).
Proof.
  intros Ho Hkv. induction Ho as [| [k0 v0] o H0 Ho IH]; cbn.
  - repeat constructor. exact Hkv.
  - destruct (String.eqb k0 k); constructor; assumption.
Qed.

Lemma obj_get_absent (o : obj) (k : string) :
  ~ In k (map fst o) -> Js.obj_get o k = VUndefined.
Proof.
  induction o as [| [k0 v0] o IH]; cbn; [reflexivity |].
  intros Hnot. destruct (String.eqb_spec k0 k) as [-> | Hne].
  - exfalso. apply Hnot. left. reflexivity.
  - apply IH. intros Hin. apply Hnot. right. exact Hin.
Qed.

(** What holds of the empty object and is kept by every assignment the
    reduction makes holds of the assembled object. *)
Lemma mapProperties_ind (P : obj -> Prop) :
  P [] ->
  (forall o prop,
      P o -> P (Js.obj_set o (fst (map_entry prop)) (snd (map_entry prop)))) ->
  forall properties, P (mapProperties properties).
Proof.
  intros Hnil Hstep properties. unfold mapProperties.
  generalize (filter (fun property =>
                        Js.is_string (Js.obj_get property "key"))
                     properties).
  intros selected. revert Hnil. generalize (@nil (string * value)).
  induction selected as [| prop selected IH]; intros o Ho; cbn;
    [exact Ho |].
  apply IH, Hstep, Ho.
Qed.

(** The assembled input is a well-formed object: no property name occurs
    twice, however often a name is selected. *)
Theorem mapProperties_keys_unique (properties : list obj) :
  NoDup (map fst (mapProperties properties)).
Proof.
  apply (mapProperties_ind (fun o => NoDup (map fst o))).
  - constructor.
  - intros o prop Ho. apply obj_set_NoDup, Ho.
Qed.

(** No value of the assembled input is [undefined] or [null]. *)
Theorem mapProperties_values_defined (properties : list obj) :
  Forall (fun kv => Js.nullish (snd kv) = false) (mapProperties properties).
Proof.
  apply (mapProperties_ind
           (Forall (fun kv => Js.nullish (snd kv) = false))).
  - constructor.
  - intros o prop Ho. apply obj_set_Forall; [exact Ho |].
    unfold map_entry. cbn [snd]. unfold Js.coalesce.
    destruct (Js.nullish (Js.obj_get prop _)) eqn:E; [reflexivity | exact E].
Qed.

Lemma split_head_no_sep (c : ascii) (s : string) :
  has_char c (hd ""%string (Js.split c s)) = false.
Proof.
  induction s as [| a s IH]; cbn; [reflexivity |].
  destruct (Ascii.eqb a c) eqn:E; [reflexivity |].
  destruct (Js.split c s) as [| piece pieces]; cbn in *.
  - rewrite E. reflexivity.
  - rewrite E, IH. reflexivity.
Qed.

(** No property name of the assembled input contains '|'; so a schema
    property whose name contains '|' is never sent under its own name,
    whatever is selected. *)
Theorem mapProperties_never_sends_name_with_sep
        (properties : list obj) (key : string) :
  has_char "|" key = true ->
  Js.obj_get (mapProperties properties) key = VUndefined.
Proof.
  intros Hkey. apply obj_get_absent. intros Hin.
  assert (Hall : Forall (fun k => has_char "|" k = false)
                        (map fst (mapProperties properties))).
  { apply (mapProperties_ind
             (fun o => Forall (fun k => has_char "|" k = false) (map fst o))).
    - constructor.
    - intros o prop Ho. apply Forall_forall. intros k Hk.
      apply obj_set_keys in Hk as [-> | Hk].
      + unfold map_entry. cbn [fst]. apply split_head_no_sep.
      + rewrite Forall_forall in Ho. apply Ho, Hk. }
  rewrite Forall_forall in Hall. rewrite (Hall key Hin) in Hkey.
  discriminate Hkey.
Qed.

Lemma mapProperties_never_sends_name_with_sep_witness :
  Js.obj_get
    (mapProperties [selection "a|b|string" "stringValue" (VStr "x")]) "a|b"
  = VUndefined.
Proof.
  apply (mapProperties_never_sends_name_with_sep
           [selection "a|b|string" "stringValue" (VStr "x")] "a|b").
  reflexivity.
Defined.

(** An entry whose [key] is not a string contributes nothing. *)
Theorem mapProperties_skips_entry_without_string_key
        (before after : list obj) (prop : obj) :
  Js.is_string (Js.obj_get prop "key") = false ->
  mapProperties (before ++ prop :: after) = mapProperties (before ++ after).
Proof.
  intros Hkey. unfold mapProperties.
  rewrite !filter_app. cbn [filter]. rewrite Hkey. reflexivity.
Qed.

Lemma mapProperties_skips_entry_without_string_key_witness :
  mapProperties ([selection "a|string" "stringValue" (VStr "x")]
                   ++ [("stringValue", VStr "y")] :: [])
  = mapProperties ([selection "a|string" "stringValue" (VStr "x")] ++ []).
Proof.
  apply (mapProperties_skips_entry_without_string_key
           [selection "a|string" "stringValue" (VStr "x")] []
           [("stringValue", VStr "y")]).
  reflexivity.
Defined.





(** ** More on the version listing *)

Lemma string_app_assoc (a b c : string) :
  ((a ++ b) ++ c = a ++ (b ++ c))%string.
Proof.
  induction a as [| x a IH]; cbn; [reflexivity |]. rewrite IH. reflexivity.
Qed.

(** Versions that arrive newest first are left in the order they came. *)
Lemma sort_of_newest_first (getTime : string -> Z) (l : list version) :
  StronglySorted (not_older getTime) l ->
  Js.sort (by_created_at getTime) l = l.
Proof.
  induction 1 as [| x l Hl IH Hx]; [reflexivity |].
  cbn [Js.sort]. rewrite IH.
  destruct l as [| y l']; [reflexivity |]. cbn [Js.sort_insert].
  inversion Hx as [| ? ? Hxy _]; subst. unfold not_older in Hxy.
  unfold by_created_at.
  destruct (Z.ltb_spec 0 (getTime (created_at y) - getTime (created_at x)));
    [lia | reflexivity].
Qed.

(** A registry answer that is already newest first is listed as it came:
    with no filter, the listing is the answer, item for item. *)
Theorem getModelVersions_keeps_newest_first_order
        (getTime : string -> Z) (modelName : string)
        (results : list version) :
  StronglySorted (not_older getTime) results ->
  getModelVersions getTime modelName None results
  = map (search_item modelName) results.
Proof.
  intros Hsorted. unfold getModelVersions.
  rewrite (sort_of_newest_first getTime results Hsorted). f_equal.
  induction results as [| v l IH]; [reflexivity |].
  cbn [filter]. rewrite includes_empty. f_equal. apply IH.
  inversion Hsorted; assumption.
Qed.

Lemma getModelVersions_keeps_newest_first_order_witness :
  getModelVersions example_getTime "owner/model" None
    [ {| id := "T2"; created_at := "2023-06-01" |};
      {| id := "T3"; created_at := "2023-03-01" |} ]
  = map (search_item "owner/model")
        [ {| id := "T2"; created_at := "2023-06-01" |};
          {| id := "T3"; created_at := "2023-03-01" |} ].
Proof.
  apply (getModelVersions_keeps_newest_first_order example_getTime).
  repeat constructor. unfold not_older. vm_compute. discriminate.
Defined.

(** Typing more of a filter only narrows the listing: whatever is listed
    for a filter is listed for every substring of that filter. *)
Theorem getModelVersions_longer_filter_narrows
        (getTime : string -> Z) (modelName shorter longer : string)
        (results : list version) :
  Js.includes longer shorter = true ->
  incl (getModelVersions getTime modelName (Some longer) results)
       (getModelVersions getTime modelName (Some shorter) results).
Proof.
  intros Hsub x Hx. unfold getModelVersions in *.
  apply in_map_iff in Hx as [v [<- Hv]]. apply in_map.
  apply filter_In in Hv as [Hin Hlong]. apply filter_In.
  split; [exact Hin |].
  apply includes_spec in Hsub as [a [b Hab]].
  apply includes_spec in Hlong as [pre [post Hid]].
  apply includes_spec. exists (pre ++ a)%string, (b ++ post)%string.
  rewrite Hid, Hab, !string_app_assoc. reflexivity.
Qed.

Lemma getModelVersions_longer_filter_narrows_witness :
  incl (getModelVersions example_getTime "owner/model" (Some "abc1")
          [ {| id := "abc123"; created_at := "2023-01-01" |};
            {| id := "abc456"; created_at := "2023-01-01" |} ])
       (getModelVersions example_getTime "owner/model" (Some "bc")
          [ {| id := "abc123"; created_at := "2023-01-01" |};
            {| id := "abc456"; created_at := "2023-01-01" |} ]).
Proof.
  apply (getModelVersions_longer_filter_narrows
           example_getTime "owner/model" "bc" "abc1").
  reflexivity.
Defined.

(* ------------------------------------------------------------------ *)
(** * Further properties of the job client *)
(* ------------------------------------------------------------------ *)

Lemma count_gets_app (t1 t2 : list event) :
  count_gets (t1 ++ t2) = count_gets t1 + count_gets t2.
Proof. unfold count_gets. rewrite filter_app, length_app. reflexivity. Qed.

Lemma count_sleeps_app (ms : Z) (t1 t2 : list event) :
  count_sleeps ms (t1 ++ t2) = count_sleeps ms t1 + count_sleeps ms t2.
Proof. unfold count_sleeps. rewrite filter_app, length_app. reflexivity. Qed.

Lemma total_wait_app (t1 t2 : list event) :
  total_wait (t1 ++ t2) = (total_wait t1 + total_wait t2)%Z.
Proof.
  induction t1 as [| e t1 IH]; [reflexivity |].
  destruct e; cbn [app total_wait]; rewrite IH; lia.
Qed.

Lemma accounted_app (t1 t2 : list event) :
  accounted t1 -> accounted t2 -> accounted (t1 ++ t2).
Proof.
  unfold accounted. intros [H1 W1] [H2 W2].
  rewrite !count_gets_app, !count_sleeps_app, total_wait_app.
  split; [lia |]. rewrite W1, W2. lia.
Qed.

Section PollingAccounts.

Variable http : nat -> http_result.

(** Whatever the service answers, the loop waits the fixed delay once per
    GET attempt, and its waiting time is made of those delays and of the
    backoffs; each GET is one request. *)
Lemma poll_loop_accounted (fuel i : nat) (getUrl : value) (numErrors : nat)
      (responseData : value) (n : nat) :
  let r := poll_loop http fuel i getUrl numErrors responseData n in
  accounted (trace r) /\ calls r = n + count_gets (trace r).
Proof.
  revert numErrors responseData n.
  induction fuel as [| fuel IH]; intros numErrors responseData n.
  - cbn. split; [split; reflexivity | lia].
  - cbn zeta.
    assert (Hcheck : forall ne rd pre,
               accounted pre -> count_gets pre = 1 ->
               let r := status_check http fuel i getUrl ne rd pre (S n) in
               accounted (trace r) /\ calls r = n + count_gets (trace r)).
    { intros ne rd pre Hpre Hone. unfold status_check. cbn zeta.
      destruct (Js.get rd "status") as [status | err];
        [| cbn [trace calls]; split; [exact Hpre | lia]].
      destruct (Js.strict_eq_str status "failed");
        [cbn [trace calls]; split; [exact Hpre | lia] |].
      destruct (Js.strict_eq_str status "succeeded");
        [cbn [trace calls]; split; [exact Hpre | lia] |].
      destruct (IH ne rd (S n)) as [Hacc Hcalls]. cbn [prepend trace calls].
      split; [apply accounted_app; assumption |].
      rewrite count_gets_app, Hcalls. lia. }
    rewrite poll_loop_step. destruct (http n) as [body | e].
    + apply Hcheck; [split |]; reflexivity.
    + destruct (2 <? S numErrors)%nat.
      * cbn. split; [split; reflexivity | lia].
      * apply Hcheck; [split |]; reflexivity.
Qed.

(** The extended delay is waited at most twice in a loop, less what the
    error counter already holds. *)
Lemma poll_loop_backoffs (fuel i : nat) (getUrl : value) (numErrors : nat)
      (responseData : value) (n : nat) :
  numErrors <= 2 ->
  count_sleeps backoff_delay
    (trace (poll_loop http fuel i getUrl numErrors responseData n))
  + numErrors <= 2.
Proof.
  revert numErrors responseData n.
  induction fuel as [| fuel IH]; intros numErrors responseData n Hne.
  - cbn. lia.
  - assert (Hcheck : forall ne rd pre,
               ne <= 2 ->
               count_sleeps backoff_delay
                 (trace (status_check http fuel i getUrl ne rd pre (S n)))
               + ne
               <= 2 + count_sleeps backoff_delay pre).
    { intros ne rd pre Hle. unfold status_check.
      destruct (Js.get rd "status") as [status | err];
        [| cbn [trace]; lia].
      destruct (Js.strict_eq_str status "failed"); [cbn [trace]; lia |].
      destruct (Js.strict_eq_str status "succeeded"); [cbn [trace]; lia |].
      cbn [prepend trace]. rewrite count_sleeps_app.
      specialize (IH ne rd (S n) Hle). lia. }
    rewrite poll_loop_step. destruct (http n) as [body | e].
    + specialize (Hcheck numErrors body (poll_round i getUrl) Hne).
      change (count_sleeps backoff_delay (poll_round i getUrl)) with 0
        in Hcheck.
      lia.
    + destruct (Nat.ltb_spec 2 (S numErrors)) as [Hfatal | Hretry].
      * change (count_sleeps backoff_delay
                  (trace {| result := @Throw value
                                        (NodeApiError
                                           "Error getting data from replicate"
                                           e);
                            trace := poll_round i getUrl; calls := S n |}))
          with 0.
        lia.
      * specialize (Hcheck (S numErrors) responseData
                           (poll_round i getUrl ++ [EvSleep i backoff_delay])
                           Hretry).
        change (count_sleeps backoff_delay
                  (poll_round i getUrl ++ [EvSleep i backoff_delay]))
          with 1 in Hcheck.
        lia.
Qed.

(** Every event of the loop is one of its two waits or a GET of [getUrl]. *)
Lemma poll_loop_event_shapes (fuel i : nat) (getUrl : value)
      (numErrors : nat) (responseData : value) (n : nat) :
  Forall (fun e => e = EvSleep i poll_delay
                   \/ e = EvSleep i backoff_delay
                   \/ e = EvGet i getUrl)
         (trace (poll_loop http fuel i getUrl numErrors responseData n)).
Proof.
  revert numErrors responseData n.
  induction fuel as [| fuel IH]; intros numErrors responseData n;
    [constructor |].
  assert (Hcheck : forall ne rd pre,
             Forall (fun e => e = EvSleep i poll_delay
                              \/ e = EvSleep i backoff_delay
                              \/ e = EvGet i getUrl) pre ->
             Forall (fun e => e = EvSleep i poll_delay
                              \/ e = EvSleep i backoff_delay
                              \/ e = EvGet i getUrl)
                    (trace (status_check http fuel i getUrl ne rd pre (S n)))).
  { intros ne rd pre Hpre. unfold status_check.
    destruct (Js.get rd "status") as [status | err]; [| exact Hpre].
    destruct (Js.strict_eq_str status "failed"); [exact Hpre |].
    destruct (Js.strict_eq_str status "succeeded"); [exact Hpre |].
    cbn. apply Forall_app. split; [exact Hpre | apply IH]. }
  assert (Hround : Forall (fun e => e = EvSleep i poll_delay
                                    \/ e = EvSleep i backoff_delay
                                    \/ e = EvGet i getUrl)
                          (poll_round i getUrl)).
  { constructor; [left; reflexivity |].
    constructor; [right; right; reflexivity | constructor]. }
  rewrite poll_loop_step. destruct (http n) as [body | e].
  - apply Hcheck, Hround.
  - destruct (2 <? S numErrors)%nat; [exact Hround |].
    apply Hcheck, Forall_app. split; [exact Hround |].
    constructor; [right; left; reflexivity | constructor].
Qed.

(** A loop that has stopped has made an attempt. *)
Lemma poll_loop_stopped_has_polled (fuel i : nat) (getUrl : value)
      (numErrors : nat) (responseData : value) (n : nat) :
  result (poll_loop http fuel i getUrl numErrors responseData n) <> Running ->
  1 <= count_gets
         (trace (poll_loop http fuel i getUrl numErrors responseData n)).
Proof.
  destruct fuel as [| fuel]; [intros H; exfalso; apply H; reflexivity |].
  intros _. rewrite poll_loop_step.
  assert (Hcheck : forall ne rd pre,
             1 <= count_gets pre ->
             1 <= count_gets
                    (trace (status_check http fuel i getUrl ne rd pre (S n)))).
  { intros ne rd pre Hpre. unfold status_check.
    destruct (Js.get rd "status") as [status | err]; [| exact Hpre].
    destruct (Js.strict_eq_str status "failed"); [exact Hpre |].
    destruct (Js.strict_eq_str status "succeeded"); [exact Hpre |].
    cbn [prepend trace]. rewrite count_gets_app. lia. }
  destruct (http n) as [body | e].
  - apply Hcheck. cbn. lia.
  - destruct (2 <? S numErrors)%nat; [cbn; lia |]. apply Hcheck. cbn. lia.
Qed.

End PollingAccounts.

(** ** One item *)

(** The events of an item: its submission, then those of its loop, if the
    loop was entered. *)
Lemma process_item_trace (http : nat -> http_result) (fuel i : nat)
      (it : item) (responseData : value) (n : nat) :
  let r := process_item http fuel i it responseData n in
  (trace r = [submission i it] /\ calls r = S n /\ result r <> Running
   /\ forall v, result r <> Ret v)
  \/ (exists res,
         http n = Response res
         /\ r = prepend [submission i it]
                        (poll_loop http fuel i (status_url res) 0
                                   responseData (S n))).
Proof.
  cbn zeta. rewrite process_item_cases.
  destruct (http n) as [res | e];
    [| left; repeat split; intros; discriminate].
  destruct (Js.nullish res); [left; repeat split; intros; discriminate |].
  destruct (Js.truthy (status_url res));
    [| left; repeat split; intros; discriminate].
  right. exists res. split; reflexivity.
Qed.

(** Requests and waits of one item, whatever the service answers: the
    fixed delay is waited exactly once per GET attempt, and the requests
    issued are the POST and those GETs. *)
Theorem process_item_one_wait_per_poll (http : nat -> http_result)
        (fuel i : nat) (it : item) (responseData : value) (n : nat) :
  let r := process_item http fuel i it responseData n in
  count_sleeps poll_delay (trace r) = count_gets (trace r)
  /\ calls r = S n + count_gets (trace r).
Proof.
  intros r.
  destruct (process_item_trace http fuel i it responseData n)
    as [[Ht [Hc _]] | [res [_ Hr]]]; fold r in Ht, Hc || fold r in Hr.
  - rewrite Ht, Hc. split; [reflexivity |].
    change (count_gets [submission i it]) with 0. lia.
  - rewrite Hr. cbn [prepend trace calls].
    destruct (poll_loop_accounted http fuel i (status_url res) 0
                                  responseData (S n)) as [[Hp _] Hcalls].
    rewrite count_sleeps_app, count_gets_app, Hp, Hcalls.
    change (count_gets [submission i it]) with 0.
    change (count_sleeps poll_delay [submission i it]) with 0.
    split; lia.
Qed.

(** Waiting time of one item, whatever the service answers: at most two
    backoffs are waited, so the time spent waiting is the fixed delay
    times the number of GET attempts, plus at most twice the backoff. *)
Theorem process_item_waiting_time (http : nat -> http_result)
        (fuel i : nat) (it : item) (responseData : value) (n : nat) :
  let r := process_item http fuel i it responseData n in
  let polls := Z.of_nat (count_gets (trace r)) in
  count_sleeps backoff_delay (trace r) <= 2
  /\ (poll_delay * polls <= total_wait (trace r)
      <= poll_delay * polls + 2 * backoff_delay)%Z.
Proof.
  intros r polls. unfold polls.
  destruct (process_item_trace http fuel i it responseData n)
    as [[Ht _] | [res [_ Hr]]]; fold r in Ht || fold r in Hr.
  - rewrite Ht. cbn. unfold poll_delay, backoff_delay. lia.
  - rewrite Hr. cbn [prepend trace].
    destruct (poll_loop_accounted http fuel i (status_url res) 0
                                  responseData (S n)) as [[_ Hw] _].
    assert (Hb := poll_loop_backoffs http fuel i (status_url res) 0
                                     responseData (S n) (Nat.le_0_l 2)).
    rewrite count_sleeps_app, count_gets_app, total_wait_app, Hw.
    change (count_sleeps backoff_delay [submission i it]) with 0.
    change (count_gets [submission i it]) with 0.
    change (total_wait [submission i it]) with 0%Z.
    set (loop := trace (poll_loop http fuel i (status_url res) 0
                                  responseData (S n))) in *.
    generalize dependent (count_sleeps backoff_delay loop).
    generalize (count_gets loop). intros polled backoffs _ Hb.
    unfold poll_delay, backoff_delay. lia.
Qed.

(** Every event of an item whose submission was answered is that
    submission, one of the two waits, or a GET of the URL found in the
    answer: no other address is ever polled. *)
Theorem process_item_polls_status_url (http : nat -> http_result)
        (fuel i : nat) (it : item) (responseData : value) (n : nat)
        (res : value) :
  http n = Response res ->
  Forall (fun e => e = submission i it
                   \/ e = EvSleep i poll_delay
                   \/ e = EvSleep i backoff_delay
                   \/ e = EvGet i (status_url res))
         (trace (process_item http fuel i it responseData n)).
Proof.
  intros Hres.
  destruct (process_item_trace http fuel i it responseData n)
    as [[Ht _] | [res' [Hres' Hr]]].
  - rewrite Ht. constructor; [left; reflexivity | constructor].
  - rewrite Hr. rewrite Hres in Hres'. injection Hres' as <-.
    cbn [prepend trace app]. constructor; [left; reflexivity |].
    eapply Forall_impl;
      [| apply (poll_loop_event_shapes http fuel i (status_url res) 0
                                       responseData (S n))].
    cbn. intros e He. right. exact He.
Qed.

Lemma process_item_polls_status_url_witness :
  Forall (fun e => e = submission 0 one_item
                   \/ e = EvSleep 0 poll_delay
                   \/ e = EvSleep 0 backoff_delay
                   \/ e = EvGet 0 (VStr "u"))
         (trace (process_item (scripted (accepted :: three_polls)) 5 0
                              one_item VUndefined 0)).
Proof.
  apply (process_item_polls_status_url
           (scripted (accepted :: three_polls)) 5 0 one_item VUndefined 0
           (VObj [("urls", VObj [("get", VStr "u")])])).
  reflexivity.
Defined.

(** An item that returns has waited the fixed delay and polled at least
    once: the status in the submission answer is never looked at. *)
Theorem process_item_returns_after_polling (http : nat -> http_result)
        (fuel i : nat) (it : item) (responseData : value) (n : nat)
        (v : value) :
  result (process_item http fuel i it responseData n) = Ret v ->
  1 <= count_gets (trace (process_item http fuel i it responseData n))
  /\ (poll_delay
      <= total_wait (trace (process_item http fuel i it responseData n)))%Z.
Proof.
  intros Hret.
  destruct (process_item_trace http fuel i it responseData n)
    as [[_ [_ [_ Hno]]] | [res [_ Hr]]]; [exfalso; apply (Hno v Hret) |].
  rewrite Hr in Hret |- *. rewrite result_prepend in Hret.
  cbn [prepend trace].
  assert (Hpolled := poll_loop_stopped_has_polled
                       http fuel i (status_url res) 0 responseData (S n)).
  rewrite Hret in Hpolled. specialize (Hpolled ltac:(discriminate)).
  destruct (poll_loop_accounted http fuel i (status_url res) 0
                                responseData (S n)) as [[_ Hw] _].
  rewrite count_gets_app, total_wait_app, Hw.
  change (count_gets [submission i it]) with 0.
  change (total_wait [submission i it]) with 0%Z.
  unfold poll_delay, backoff_delay in *. lia.
Qed.

Lemma process_item_returns_after_polling_witness :
  let t := trace (process_item (scripted early_success_script) 5 0
                               one_item VUndefined 0) in
  1 <= count_gets t /\ (poll_delay <= total_wait t)%Z.
Proof.
  apply (process_item_returns_after_polling
           (scripted early_success_script) 5 0 one_item VUndefined 0
           succeeded_42).
  reflexivity.
Defined.

(** ** Rejections *)

(** A rejected submission is not caught and not retried: the rejection
    leaves [execute] as it is, after the one POST, and nothing is polled
    or submitted for the rest of the batch. *)
Theorem execute_rejected_submission (http : nat -> http_result)
        (fuel n : nat) (it : item) (rest : list item) (e : value) :
  http n = Rejected e ->
  execute http fuel "model" "prediction" (it :: rest) n
  = {| result := Throw (HttpError e); trace := [submission 0 it];
       calls := S n |}.
Proof.
  intros Hrej.
  rewrite execute_prediction, for_items_cons, process_item_cases, Hrej.
  reflexivity.
Qed.

Lemma execute_rejected_submission_witness :
  execute (scripted [connection_reset; accepted]) 5 "model" "prediction"
          (item_A :: [item_B]) 0
  = {| result := Throw (HttpError (VStr "ECONNRESET"));
       trace := [submission 0 item_A]; calls := 1 |}.
Proof.
  apply (execute_rejected_submission
           (scripted [connection_reset; accepted]) 5 0 item_A [item_B]
           (VStr "ECONNRESET")).
  reflexivity.
Defined.

(** The payload an item returned stays in [responseData]: if the first
    poll of the next item is rejected, that item ends after the backoff
    with the previous item's payload as its own result, its job polled
    once and never again. *)
Theorem for_items_rejected_first_poll_reuses_payload
        (http : nat -> http_result) (fuel i : nat) (it1 it2 : item)
        (responseData : value) (returnData : list INodeExecutionData)
        (n : nat) (v res e : value) :
  let r1 := process_item http (S fuel) i it1 responseData n in
  result r1 = Ret v ->
  http (calls r1) = Response res ->
  Js.nullish res = false ->
  Js.truthy (status_url res) = true ->
  http (S (calls r1)) = Rejected e ->
  for_items http (S fuel) i [it1; it2] responseData returnData n
  = {| result := Ret (returnData
                        ++ [ {| json := v; pairedItem := i |};
                             {| json := v; pairedItem := S i |} ]);
       trace := trace r1
                ++ submission (S i) it2
                   :: poll_round (S i) (status_url res)
                ++ [EvSleep (S i) backoff_delay];
       calls := S (S (calls r1)) |}.
Proof.
  intros r1 Hret Hres Hnn Hurl Hrej.
  assert (Hsucc : reports v "succeeded")
    by (apply (process_item_returns http (S fuel) i it1 responseData n v
                                    Hret)).
  rewrite for_items_cons. cbn zeta. fold r1. rewrite Hret.
  rewrite for_items_cons. cbn zeta.
  rewrite process_item_cases, Hres, Hnn, Hurl.
  rewrite (poll_loop_rejection_with_stale_success
             http fuel (S i) (status_url res) 0 v e (S (calls r1))
             Hsucc Hrej) by lia.
  unfold prepend. cbn [result trace calls for_items ret app].
  rewrite <- app_assoc, app_nil_r. reflexivity.
Qed.

Lemma for_items_rejected_first_poll_reuses_payload_witness :
  for_items (scripted [accepted; Response succeeded_42;
                       accepted; connection_reset])
            (S 4) 0 [item_A; item_B] VUndefined [] 0
  = {| result := Ret ([] ++ [ {| json := succeeded_42; pairedItem := 0 |};
                              {| json := succeeded_42; pairedItem := 1 |} ]);
       trace := trace (process_item
                         (scripted [accepted; Response succeeded_42;
                                    accepted; connection_reset])
                         (S 4) 0 item_A VUndefined 0)
                ++ submission 1 item_B
                   :: poll_round 1 (VStr "u")
                ++ [EvSleep 1 backoff_delay];
       calls := 4 |}.
Proof.
  apply (for_items_rejected_first_poll_reuses_payload
           (scripted [accepted; Response succeeded_42;
                      accepted; connection_reset])
           4 0 item_A item_B VUndefined [] 0 succeeded_42
           (VObj [("urls", VObj [("get", VStr "u")])]) (VStr "ECONNRESET"));
    reflexivity.
Defined.

(** Non-terminal polls that leave the last response non-terminal. *)
Lemma poll_loop_pending_prefix_pending (http : nat -> http_result)
      (k fuel i : nat) (getUrl : value) (numErrors : nat)
      (responseData : value) (n : nat) :
  is_pending responseData = true ->
  (forall j, j < k ->
             exists body, http (n + j) = Response body
                          /\ is_pending body = true) ->
  exists responseData',
    is_pending responseData' = true
    /\ poll_loop http (k + fuel) i getUrl numErrors responseData n
       = prepend (poll_rounds k i getUrl)
                 (poll_loop http fuel i getUrl numErrors responseData'
                            (n + k)).
Proof.
  revert responseData n.
  induction k as [| k IH]; intros responseData n Hrd Hpending.
  - exists responseData. split; [exact Hrd |].
    rewrite Nat.add_0_r. cbn [Nat.add poll_rounds].
    rewrite prepend_nil. reflexivity.
  - destruct (Hpending 0 (Nat.lt_0_succ k)) as [body [Hbody Hp]].
    rewrite Nat.add_0_r in Hbody.
    destruct (IH body (S n) Hp) as [responseData' [Hrd' Hrest]].
    { intros j Hj. destruct (Hpending (S j)) as [b Hb]; [lia |].
      exists b. rewrite Nat.add_succ_r in Hb. exact Hb. }
    exists responseData'. split; [exact Hrd' |].
    change (S k + fuel) with (S (k + fuel)).
    rewrite poll_loop_step, Hbody.
    rewrite (status_check_pending http _ _ _ _ _ _ _ Hp).
    rewrite Hrest, prepend_prepend, Nat.add_succ_r. reflexivity.
Qed.

(** The error counter is never reset: rejected polls count towards the
    cap of three even when polls answered with a non-terminal status lie
    between them.  The third rejected poll of a job is fatal, with [k1]
    and [k2] answered polls after the first and the second. *)
Theorem poll_loop_rejections_accumulate (http : nat -> http_result)
        (fuel i : nat) (getUrl : value) (responseData : value)
        (n k1 k2 : nat) (e1 e2 e3 : value) :
  is_pending responseData = true ->
  http n = Rejected e1 ->
  (forall j, j < k1 ->
             exists body, http (S n + j) = Response body
                          /\ is_pending body = true) ->
  http (S n + k1) = Rejected e2 ->
  (forall j, j < k2 ->
             exists body, http (S (S n + k1) + j) = Response body
                          /\ is_pending body = true) ->
  http (S (S n + k1) + k2) = Rejected e3 ->
  let r := poll_loop http (S (k1 + S (k2 + S fuel))) i getUrl 0
                     responseData n in
  result r = Throw (NodeApiError "Error getting data from replicate" e3)
  /\ calls r = n + (3 + k1 + k2).
Proof.
  intros Hrd H1 Hk1 H2 Hk2 H3 r. unfold r.
  rewrite (poll_loop_rejection_retries http _ _ _ _ _ _ _ Hrd H1) by lia.
  destruct (poll_loop_pending_prefix_pending
              http k1 (S (k2 + S fuel)) i getUrl 1 responseData (S n)
              Hrd Hk1) as [rd1 [Hrd1 Hrun1]].
  rewrite Hrun1.
  rewrite (poll_loop_rejection_retries http _ _ _ _ _ _ _ Hrd1 H2) by lia.
  destruct (poll_loop_pending_prefix_pending
              http k2 (S fuel) i getUrl 2 rd1 (S (S n + k1))
              Hrd1 Hk2) as [rd2 [Hrd2 Hrun2]].
  rewrite Hrun2.
  rewrite (poll_loop_rejection_fatal http _ _ _ _ rd2 _ _ H3) by lia.
  unfold prepend. cbn [result calls]. split; [reflexivity | lia].
Qed.

Lemma poll_loop_rejections_accumulate_witness :
  let r := poll_loop
             (scripted [connection_reset;
                        Response (VObj [("status", VStr "processing")]);
                        connection_reset;
                        Rejected (VStr "ETIMEDOUT")])
             (S (1 + S (0 + S 0))) 0 (VStr "u") 0
             (VObj [("status", VStr "starting")]) 0 in
  result r = Throw (NodeApiError "Error getting data from replicate"
                                 (VStr "ETIMEDOUT"))
  /\ calls r = 0 + (3 + 1 + 0).
Proof.
  apply (poll_loop_rejections_accumulate
           (scripted [connection_reset;
                      Response (VObj [("status", VStr "processing")]);
                      connection_reset;
                      Rejected (VStr "ETIMEDOUT")])
           0 0 (VStr "u") (VObj [("status", VStr "starting")]) 0 1 0
           (VStr "ECONNRESET") (VStr "ECONNRESET") (VStr "ETIMEDOUT")).
  - reflexivity.
  - reflexivity.
  - intros j Hj. destruct j as [| j]; [| lia].
    eexists; split; reflexivity.
  - reflexivity.
  - intros j Hj. lia.
  - reflexivity.
Defined.

(** ** Submissions of a batch *)

Section SubmissionFacts.

Variable http : nat -> http_result.

Lemma poll_loop_posts_nothing (fuel i : nat) (getUrl : value)
      (numErrors : nat) (responseData : value) (n : nat) :
  filter is_post
         (trace (poll_loop http fuel i getUrl numErrors responseData n))
  = [].
Proof.
  assert (H := poll_loop_event_shapes http fuel i getUrl numErrors
                                      responseData n).
  induction H as [| e t He _ IH]; [reflexivity |].
  cbn [filter]. rewrite IH.
  destruct He as [-> | [-> | ->]]; reflexivity.
Qed.

(** An item is submitted exactly once, first thing. *)
Lemma process_item_posts (fuel i : nat) (it : item) (responseData : value)
      (n : nat) :
  filter is_post (trace (process_item http fuel i it responseData n))
  = [submission i it].
Proof.
  destruct (process_item_trace http fuel i it responseData n)
    as [[Ht _] | [res [_ Hr]]].
  - rewrite Ht. reflexivity.
  - rewrite Hr. cbn [prepend trace app filter submission is_post].
    fold (submission i it). rewrite poll_loop_posts_nothing. reflexivity.
Qed.

Lemma for_items_posts (fuel : nat) (items : list item) (i : nat)
      (responseData : value) (returnData : list INodeExecutionData)
      (n : nat) :
  let r := for_items http fuel i items responseData returnData n in
  (exists k, filter is_post (trace r) = firstn k (submissions i items))
  /\ (forall out, result r = Ret out ->
                  filter is_post (trace r) = submissions i items).
Proof.
  revert i responseData returnData n.
  induction items as [| it rest IH]; intros i responseData returnData n.
  - cbn. split; [exists 0; reflexivity | reflexivity].
  - cbn zeta. rewrite for_items_cons. cbn zeta.
    assert (Hpost := process_item_posts fuel i it responseData n).
    destruct (result (process_item http fuel i it responseData n))
      as [v | e |].
    + destruct (IH (S i) v
                   (returnData ++ [{| json := v; pairedItem := i |}])
                   (calls (process_item http fuel i it responseData n)))
        as [[k Hk] Hall].
      cbn [prepend trace result submissions]. rewrite filter_app, Hpost.
      split.
      * exists (S k). cbn [firstn app]. rewrite Hk. reflexivity.
      * intros out Hout. rewrite (Hall out Hout). reflexivity.
    + cbn [trace result submissions]. rewrite Hpost.
      split; [exists 1; reflexivity | discriminate].
    + cbn [trace result submissions]. rewrite Hpost.
      split; [exists 1; reflexivity | discriminate].
Qed.

End SubmissionFacts.

(** The POSTs of a batch are the submissions of its items, one each, in
    input order and with the body built from that item, up to the item
    where the run stops; a batch that returns has submitted every item. *)
Theorem execute_submits_each_item_once (http : nat -> http_result)
        (fuel : nat) (items : list item) (n : nat) :
  let r := execute http fuel "model" "prediction" items n in
  (exists k, filter is_post (trace r) = firstn k (submissions 0 items))
  /\ (forall out, result r = Ret out ->
                  filter is_post (trace r) = submissions 0 items).
Proof.
  cbn zeta. rewrite execute_prediction. cbn zeta. cbn [trace result].
  destruct (for_items_posts http fuel items 0 VUndefined [] n)
    as [Hprefix Hall].
  split; [exact Hprefix |].
  intros out Hout.
  destruct (result (for_items http fuel 0 items VUndefined [] n))
    as [returnData | e |] eqn:Hloop; try discriminate Hout.
  apply (Hall returnData). reflexivity.
Qed.

(** For any resource or operation other than the prediction of a model,
    [execute] issues no request, waits for nothing and returns one empty
    output, whatever the input items. *)
Theorem execute_other_resource_or_operation (http : nat -> http_result)
        (fuel : nat) (resource operation : string) (items : list item)
        (n : nat) :
  resource <> "model" \/ operation <> "prediction" ->
  execute http fuel resource operation items n
  = {| result := Ret [[]]; trace := []; calls := n |}.
Proof.
  intros Hother. unfold execute.
  destruct (String.eqb_spec resource "model") as [Hr | Hr];
    [| reflexivity].
  destruct (String.eqb_spec operation "prediction") as [Ho | Ho];
    [| reflexivity].
  destruct Hother; contradiction.
Qed.

Lemma execute_other_resource_or_operation_witness :
  execute (scripted []) 5 "model" "training" [item_A] 0
  = {| result := Ret [[]]; trace := []; calls := 0 |}.
Proof.
  apply (execute_other_resource_or_operation
           (scripted []) 5 "model" "training" [item_A] 0).
  right. discriminate.
Defined.
